(** * Order creation in the customer API

    A shallow embedding of [create_order] from [customer_api/main.py],
    together with the three [DynamoDBService] methods it awaits
    ([get_shop], [get_product], [create_order] of
    [shared/database/dynamodb.py]) and the records of
    [shared/models/base.py] it reads and builds.

    [DynamoDBService] sits on [boto3.resource('dynamodb')], and the
    handler meets the table service as it is:

    - every number of an item that is read comes back as a
      [decimal.Decimal], whatever [shared/models/base.py] declares;
    - every item that is read passes through [_deserialize_datetime];
    - a lookup under the empty string raises;
    - [put_item] raises on an item that holds a Python [float].

    Python [float] is IEEE-754 binary64: Rocq's primitive [float]. Python
    [int] is unbounded: [Z]. Each table is a finite map from its key
    attribute to the item. The handler is a program over the calls it
    awaits; a world gives the calls their meaning and records them in a
    journal. [uuid.uuid4()] draws from a stream of strings held by the
    world.

    The file has two parts: the definitions, then the lemmas and
    theorems about them. *)

From Stdlib Require Import ZArith QArith Qpower List Bool Lia Ascii String.
From Stdlib Require Import Floats.PrimFloat Floats.SpecFloat Floats.FloatOps.
From stdpp Require Import gmap strings.

Local Open Scope Z_scope.
Local Open Scope string_scope.
Local Open Scope list_scope.

(** ** Python values *)

(** [decimal.Decimal], finite: [coefficient * 10 ^ exponent]. *)
Module Decimal.
Record t := mk {
  coefficient : Z;
  exponent : Z
}.

(** The number a [Decimal] stands for. *)
Definition value (d : t) : Q :=
  (inject_Z (coefficient d) * Qpower (inject_Z 10) (exponent d))%Q.

(** [d < n] with [n] an [int]: the two numbers are compared exactly. *)
Definition lt_int (d : t) (n : Z) : bool :=
  if (0 <=? exponent d)%Z
  then (coefficient d * 10 ^ exponent d <? n)%Z
  else (coefficient d <? n * 10 ^ (- exponent d))%Z.

(** [d * n] with [n] an [int]. (The rounding to the 28 digits of the
    default context is left out: the product is only ever added to a
    [float], which raises whatever the product is.) *)
Definition mul_int (d : t) (n : Z) : t :=
  mk (coefficient d * n) (exponent d).
End Decimal.

(** [datetime.datetime]; [utcoffset] in seconds, [None] when naive. *)
Module datetime.
Record t := mk {
  year : Z;
  month : Z;
  day : Z;
  hour : Z;
  minute : Z;
  second : Z;
  microsecond : Z;
  utcoffset : option Z
}.
End datetime.

(** A top-level string attribute of an item, as stored ([Str]) and as it
    may come back from [_deserialize_datetime] ([Datetime]). *)
Inductive Text :=
| Str (s : string)
| Datetime (d : datetime.t).

(** A number of one of the two types the handler mixes. *)
Inductive Number :=
| Float (x : float)
| Dec (d : Decimal.t).

(** The values of an item passed to [put_item]. *)
#[local] Set Warnings "-register-all".
Inductive PyValue :=
| PyNone
| PyBool (b : bool)
| PyStr (s : string)
| PyInt (n : Z)
| PyFloat (x : float)
| PyDecimal (d : Decimal.t)
| PyList (l : list PyValue)
| PyDict (d : list (string * PyValue)).
#[local] Set Warnings "register-all".

(** The three functions of Python's library that are taken as given:
    [datetime.fromisoformat] ([None] for [ValueError]), [str] of a
    [datetime] as an f-string shows it, and [float] of a [Decimal] as
    pydantic applies it to a [float] field. *)
Record Python := {
  fromisoformat : string -> option datetime.t;
  datetime_str : datetime.t -> string;
  float_of_decimal : Decimal.t -> float
}.

(** [c in s] for a one-character [c]. *)
Fixpoint contains_char (c : ascii) (s : string) : bool :=
  match s with
  | EmptyString => false
  | String a r => Ascii.eqb a c || contains_char c r
  end.

(** [s.endswith(c)] for a one-character [c]. *)
Fixpoint ends_with_char (c : ascii) (s : string) : bool :=
  match s with
  | EmptyString => false
  | String a EmptyString => Ascii.eqb a c
  | String _ r => ends_with_char c r
  end.

(** [s.replace(c, new)] for a one-character [c]. *)
Fixpoint replace_char (c : ascii) (new : string) (s : string) : string :=
  match s with
  | EmptyString => EmptyString
  | String a r =>
    if Ascii.eqb a c then new +:+ replace_char c new r
    else String a (replace_char c new r)
  end.

(** A value inside an f-string. *)
Definition format (py : Python) (value : Text) : string :=
  match value with
  | Str s => s
  | Datetime d => datetime_str py d
  end.

(** [value == s] with [s] a [str]: a [datetime] equals no string. *)
Definition text_is (value : Text) (s : string) : bool :=
  match value with
  | Str t => String.eqb t s
  | Datetime _ => false
  end.

Definition upper_ascii (c : ascii) : ascii :=
  let n := nat_of_ascii c in
  if (andb (Nat.leb 97 n) (Nat.leb n 122)) then ascii_of_nat (n - 32) else c.

(** [s.upper()], on ASCII text. *)
Fixpoint upper (s : string) : string :=
  match s with
  | EmptyString => EmptyString
  | String c r => String (upper_ascii c) (upper r)
  end.

(** ** Exceptions *)

Inductive Exn :=
| HTTPException (status_code : Z) (detail : string)
| TypeError
| ClientError
| PydanticValidationError.

Inductive Outcome (A : Type) :=
| Returned (a : A)
| Raised (e : Exn).
Arguments Returned {A} a.
Arguments Raised {A} e.

(** [x + y] and [x += y] with [x] a [float]: the binary64 sum when [y] is
    a [float]; [unsupported operand type(s)] when [y] is a [Decimal]. *)
Definition float_add (x : float) (y : Number) : Outcome float :=
  match y with
  | Float y => Returned (x + y)%float
  | Dec _ => Raised TypeError
  end.

(** ** Items of the tables

    Only the attributes that [create_order] reads are kept. The numbers
    are [Decimal]s: that is what the table service hands back. The
    top-level strings are [Text]: the table holds a [Str], and
    [_deserialize_datetime] may put a [Datetime] in its place. The
    variants are nested inside the product item, where
    [_deserialize_datetime] does not look. *)

Inductive DeliveryType := DELIVERY | PICKUP.

Inductive OrderStatus :=
  PENDING | ACCEPTED | PREPARING | OUT_FOR_DELIVERY | DELIVERED | CANCELLED.

(** The values of the two [str] enumerations, and an [Optional[str]]. *)
Definition OrderStatus_value (s : OrderStatus) : string :=
  match s with
  | PENDING => "pending"
  | ACCEPTED => "accepted"
  | PREPARING => "preparing"
  | OUT_FOR_DELIVERY => "out_for_delivery"
  | DELIVERED => "delivered"
  | CANCELLED => "cancelled"
  end.

Definition DeliveryType_value (d : DeliveryType) : string :=
  match d with
  | DELIVERY => "delivery"
  | PICKUP => "pickup"
  end.

Definition optional_str (s : option string) : PyValue :=
  match s with
  | Some s => PyStr s
  | None => PyNone
  end.

Module Shop.
Record t := mk {
  status : Text;
  accepting_orders : bool;
  delivery_fee : Decimal.t
}.
End Shop.

Module ProductVariant.
Record t := mk {
  variant_id : string;
  name : string;
  selling_price : Decimal.t;
  stock_quantity : Decimal.t
}.
End ProductVariant.

Module Product.
Record t := mk {
  name : Text;
  variants : list ProductVariant.t
}.
End Product.

(** ** Records of [shared/models/base.py]

    [OrderItem] and [Order] as pydantic holds them: the money fields are
    [float]s. The [created_at]/[updated_at] stamps and the attributes left
    at [None] are not modelled. *)

Module OrderItem.
Record t := mk {
  item_id : string;
  product_id : string;
  variant_id : string;
  product_name : string;
  variant_name : string;
  quantity : Z;
  unit_price : float;
  total_price : float
}.

(** [item.dict()] *)
Definition dict (item : t) : PyValue :=
  PyDict [("item_id", PyStr (item_id item));
          ("product_id", PyStr (product_id item));
          ("variant_id", PyStr (variant_id item));
          ("product_name", PyStr (product_name item));
          ("variant_name", PyStr (variant_name item));
          ("quantity", PyInt (quantity item));
          ("unit_price", PyFloat (unit_price item));
          ("total_price", PyFloat (total_price item))].
End OrderItem.

Module Order.
Record t := mk {
  order_id : string;
  customer_id : string;
  shop_id : string;
  items : list OrderItem.t;
  subtotal : float;
  delivery_fee : float;
  total_amount : float;
  status : OrderStatus;
  delivery_type : DeliveryType;
  delivery_address : option string;
  customer_notes : option string
}.

(** [order.dict()], after [_serialize_datetime] has turned the two stamps
    into strings (they are left out here). *)
Definition dict (order : t) : list (string * PyValue) :=
  [("order_id", PyStr (order_id order));
   ("customer_id", PyStr (customer_id order));
   ("shop_id", PyStr (shop_id order));
   ("items", PyList (map OrderItem.dict (items order)));
   ("subtotal", PyFloat (subtotal order));
   ("delivery_fee", PyFloat (delivery_fee order));
   ("total_amount", PyFloat (total_amount order));
   ("status", PyStr (OrderStatus_value (status order)));
   ("delivery_type", PyStr (DeliveryType_value (delivery_type order)));
   ("delivery_address", optional_str (delivery_address order));
   ("customer_notes", optional_str (customer_notes order));
   ("merchant_notes", PyNone);
   ("estimated_delivery", PyNone)].
End Order.

(** ** Request models of [customer_api/main.py] *)

Module CartItem.
Record t := mk {
  product_id : string;
  variant_id : string;
  quantity : Z
}.
End CartItem.

Module OrderCreate.
Record t := mk {
  shop_id : string;
  items : list CartItem.t;
  delivery_type : DeliveryType;
  delivery_address : option string;
  customer_notes : option string
}.
End OrderCreate.

(** The dictionary that the loop of [create_order] appends to [items]:
    the name as read from the product item, the prices as [Decimal]s. *)
Module ItemDict.
Record t := mk {
  item_id : string;
  product_id : string;
  variant_id : string;
  product_name : Text;
  variant_name : string;
  quantity : Z;
  unit_price : Decimal.t;
  total_price : Decimal.t
}.
End ItemDict.

(** ** pydantic: [Order(...)] *)

(** A [str] field takes a [str]; a [datetime] is a validation error. *)
Definition str_field (value : Text) : Outcome string :=
  match value with
  | Str s => Returned s
  | Datetime _ => Raised PydanticValidationError
  end.

(** A [float] field takes a [float] as it is and converts a [Decimal]. *)
Definition float_field (py : Python) (value : Number) : float :=
  match value with
  | Float x => x
  | Dec d => float_of_decimal py d
  end.

(** An element of [items], a dictionary, validated as an [OrderItem]. *)
Definition OrderItem_init (py : Python) (d : ItemDict.t)
  : Outcome OrderItem.t :=
  match str_field (ItemDict.product_name d) with
  | Raised e => Raised e
  | Returned product_name =>
    Returned (OrderItem.mk (ItemDict.item_id d) (ItemDict.product_id d)
                (ItemDict.variant_id d) product_name
                (ItemDict.variant_name d) (ItemDict.quantity d)
                (float_field py (Dec (ItemDict.unit_price d)))
                (float_field py (Dec (ItemDict.total_price d))))
  end.

Fixpoint OrderItems_init (py : Python) (items : list ItemDict.t)
  : Outcome (list OrderItem.t) :=
  match items with
  | [] => Returned []
  | d :: rest =>
    match OrderItem_init py d with
    | Raised e => Raised e
    | Returned item =>
      match OrderItems_init py rest with
      | Raised e => Raised e
      | Returned items => Returned (item :: items)
      end
    end
  end.

(** [Order(order_id=..., customer_id=..., ...)] *)
Definition Order_init (py : Python) (order_id : string) (customer_id : Text)
    (shop_id : string) (items : list ItemDict.t) (subtotal : float)
    (delivery_fee : Number) (total_amount : float) (status : OrderStatus)
    (delivery_type : DeliveryType) (delivery_address : option string)
    (customer_notes : option string) : Outcome Order.t :=
  match str_field customer_id with
  | Raised e => Raised e
  | Returned customer_id =>
    match OrderItems_init py items with
    | Raised e => Raised e
    | Returned items =>
      Returned (Order.mk order_id customer_id shop_id items subtotal
                  (float_field py delivery_fee) total_amount status
                  delivery_type delivery_address customer_notes)
    end
  end.

(** ** The table service *)

(** What boto3 can turn into an attribute value: not a [float]
    ([Float types are not supported. Use Decimal types instead.]), at any
    depth. *)
Fixpoint serializable (v : PyValue) : bool :=
  match v with
  | PyFloat _ => false
  | PyList l => forallb serializable l
  | PyDict d => forallb (fun kv => serializable (snd kv)) d
  | _ => true
  end.

(** [table.get_item(Key={key_name: key})]: raises for the empty string,
    which is no key value; else the item under the key, if any. *)
Definition get_item {V} (table : gmap string V) (key : string)
  : Outcome (option V) :=
  if String.eqb key EmptyString then Raised ClientError
  else Returned (table !! key).

(** ** The awaited calls and the programs over them *)

Inductive dbE : Type -> Type :=
| ShopsGetItem (shop_id : string) : dbE (Outcome (option Shop.t))
| ProductsGetItem (product_id : string) : dbE (Outcome (option Product.t))
| OrdersPutItem (order : Order.t) : dbE (Outcome unit)
| Uuid4 : dbE string.

Inductive Prog (A : Type) : Type :=
| Ret (a : A)
| Throw (e : Exn)
| Vis {X : Type} (ev : dbE X) (k : X -> Prog A).
Arguments Ret {A} a.
Arguments Throw {A} e.
Arguments Vis {A X} ev k.

Fixpoint bind {A B} (p : Prog A) (f : A -> Prog B) : Prog B :=
  match p with
  | Ret a => f a
  | Throw e => Throw e
  | Vis ev k => Vis ev (fun x => bind (k x) f)
  end.

Definition trigger {X} (ev : dbE X) : Prog X := Vis ev Ret.

(** An outcome inside a program: the value, or the exception raised. *)
Definition lift {A} (r : Outcome A) : Prog A :=
  match r with
  | Returned a => Ret a
  | Raised e => Throw e
  end.

(** A call on a table: its exception, if any, is raised in the caller. *)
Definition call {A} (ev : dbE (Outcome A)) : Prog A :=
  Vis ev lift.

Notation "'let!' x ':=' p 'in' q" := (bind p (fun x => q))
  (at level 10, x pattern, p at level 100, q at level 200, only parsing).

(** [except Exception] turns anything that is not an [HTTPException] into
    status 500. *)
Definition except_exn (msg : string) (e : Exn) : Exn :=
  match e with
  | HTTPException c d => HTTPException c d
  | _ => HTTPException 500 msg
  end.

(** [try: ... except HTTPException: raise; except Exception: raise
    HTTPException(500, msg)]. *)
Fixpoint try_except {A} (msg : string) (p : Prog A) : Prog A :=
  match p with
  | Ret a => Ret a
  | Throw e => Throw (except_exn msg e)
  | Vis ev k => Vis ev (fun x => try_except msg (k x))
  end.

(** ** The world: tables, the UUID source and the journal of calls *)

Inductive Call :=
| CallShopsGetItem (shop_id : string)
| CallProductsGetItem (product_id : string)
| CallOrdersPutItem (order : Order.t).

Record World := mkWorld {
  shops_table : gmap string Shop.t;
  products_table : gmap string Product.t;
  orders_table : gmap string Order.t;
  uuid_stream : nat -> string;
  uuid_next : nat;
  journal : list Call
}.

Definition log (c : Call) (w : World) : World :=
  mkWorld (shops_table w) (products_table w) (orders_table w)
          (uuid_stream w) (uuid_next w) (journal w ++ [c]).

(** The item replaces any item with the same key. *)
Definition store (o : Order.t) (w : World) : World :=
  mkWorld (shops_table w) (products_table w)
          (<[Order.order_id o := o]> (orders_table w))
          (uuid_stream w) (uuid_next w) (journal w).

(** What [orders_table.put_item(Item=order_data)] makes of the item
    before it stores anything: the item is first turned into attribute
    values, which raises [TypeError] on a [float]; the table then refuses
    an empty key. *)
Definition put_item_check (o : Order.t) : Outcome unit :=
  if serializable (PyDict (Order.dict o)) then
    if String.eqb (Order.order_id o) EmptyString
    then Raised ClientError
    else Returned tt
  else Raised TypeError.

(** [orders_table.put_item(Item=order_data)] *)
Definition put_item (o : Order.t) (w : World) : Outcome unit * World :=
  match put_item_check o with
  | Returned _ => (Returned tt, store o w)
  | Raised e => (Raised e, w)
  end.

Definition next_uuid (w : World) : World :=
  mkWorld (shops_table w) (products_table w) (orders_table w)
          (uuid_stream w) (S (uuid_next w)) (journal w).

Definition handle {X} (ev : dbE X) (w : World) : X * World :=
  match ev in dbE X return X * World with
  | ShopsGetItem sid =>
    (get_item (shops_table w) sid, log (CallShopsGetItem sid) w)
  | ProductsGetItem pid =>
    (get_item (products_table w) pid, log (CallProductsGetItem pid) w)
  | OrdersPutItem o => put_item o (log (CallOrdersPutItem o) w)
  | Uuid4 => (uuid_stream w (uuid_next w), next_uuid w)
  end.

Fixpoint run {A} (p : Prog A) (w : World) : Outcome A * World :=
  match p with
  | Ret a => (Returned a, w)
  | Throw e => (Raised e, w)
  | Vis ev k => let '(x, w') := handle ev w in run (k x) w'
  end.

(** ** [DynamoDBService] and [uuid] *)

(** [_deserialize_datetime], on one top-level value of the item. *)
Definition deserialize_value (py : Python) (value : Text) : Text :=
  match value with
  | Str s =>
    if contains_char "T" s && ends_with_char "Z" s then
      match fromisoformat py (replace_char "Z" "+00:00" s) with
      | Some d => Datetime d
      | None => Str s
      end
    else Str s
  | Datetime d => Datetime d
  end.

Module db_service.

(** [_deserialize_datetime] on a shop item and on a product item. *)
Definition _deserialize_datetime_shop (py : Python) (item : Shop.t) : Shop.t :=
  Shop.mk (deserialize_value py (Shop.status item))
          (Shop.accepting_orders item) (Shop.delivery_fee item).

Definition _deserialize_datetime_product (py : Python) (item : Product.t)
  : Product.t :=
  Product.mk (deserialize_value py (Product.name item))
             (Product.variants item).

Definition get_shop (py : Python) (shop_id : string)
  : Prog (option Shop.t) :=
  let! response := call (ShopsGetItem shop_id) in
  match response with
  | Some item => Ret (Some (_deserialize_datetime_shop py item))
  | None => Ret None
  end.

Definition get_product (py : Python) (product_id : string)
  : Prog (option Product.t) :=
  let! response := call (ProductsGetItem product_id) in
  match response with
  | Some item => Ret (Some (_deserialize_datetime_product py item))
  | None => Ret None
  end.

Definition create_order (order : Order.t) : Prog Order.t :=
  let! _ := call (OrdersPutItem order) in
  Ret order.
End db_service.

Module uuid.
Definition uuid4 : Prog string := trigger Uuid4.
End uuid.

(** ** [create_order] of [customer_api/main.py] *)

(** [next((v for v in product["variants"] if v["variant_id"] == vid), None)] *)
Definition find_variant (product : Product.t) (vid : string)
  : option ProductVariant.t :=
  List.find (fun v => String.eqb (ProductVariant.variant_id v) vid)
            (Product.variants product).

(** The body of [for cart_item in order_data.items], with the two
    accumulators [items] and [subtotal]. *)
Fixpoint cart_loop (py : Python) (cart : list CartItem.t)
    (items : list ItemDict.t) (subtotal : float)
  : Prog (list ItemDict.t * float) :=
  match cart with
  | [] => Ret (items, subtotal)
  | cart_item :: rest =>
    let! product :=
      db_service.get_product py (CartItem.product_id cart_item) in
    match product with
    | None =>
      Throw (HTTPException 404
        ("Product " +:+ CartItem.product_id cart_item +:+ " not found"))
    | Some product =>
      match find_variant product (CartItem.variant_id cart_item) with
      | None =>
        Throw (HTTPException 404
          ("Variant " +:+ CartItem.variant_id cart_item +:+ " not found"))
      | Some variant =>
        if Decimal.lt_int (ProductVariant.stock_quantity variant)
                          (CartItem.quantity cart_item)
        then
          Throw (HTTPException 400
            ("Insufficient stock for " +:+ format py (Product.name product)))
        else
          let item_total :=
            Decimal.mul_int (ProductVariant.selling_price variant)
                            (CartItem.quantity cart_item) in
          let! subtotal := lift (float_add subtotal (Dec item_total)) in
          let! item_id := uuid.uuid4 in
          cart_loop py rest
            (items ++ [ItemDict.mk item_id
                         (CartItem.product_id cart_item)
                         (CartItem.variant_id cart_item)
                         (Product.name product)
                         (ProductVariant.name variant)
                         (CartItem.quantity cart_item)
                         (ProductVariant.selling_price variant)
                         item_total])
            subtotal
      end
    end
  end.

(** [shop["delivery_fee"] if ... == DeliveryType.DELIVERY else 0.0] *)
Definition shop_delivery_fee (shop : Shop.t) (delivery_type : DeliveryType)
  : Number :=
  match delivery_type with
  | DELIVERY => Dec (Shop.delivery_fee shop)
  | PICKUP => Float 0%float
  end.

(** The statements inside [try:]. [current_user_id] is
    [current_user["user_id"]]. *)
Definition create_order_body (py : Python) (order_data : OrderCreate.t)
    (current_user_id : Text) : Prog Order.t :=
  let! shop := db_service.get_shop py (OrderCreate.shop_id order_data) in
  match shop with
  | None => Throw (HTTPException 404 "Shop not found")
  | Some shop =>
    if negb (text_is (Shop.status shop) "approved")
    then Throw (HTTPException 404 "Shop not found")
    else if negb (Shop.accepting_orders shop)
    then Throw (HTTPException 400 "Shop is not accepting orders")
    else
      let! (items, subtotal) :=
        cart_loop py (OrderCreate.items order_data) [] 0%float in
      let delivery_fee :=
        shop_delivery_fee shop (OrderCreate.delivery_type order_data) in
      let! total_amount := lift (float_add subtotal delivery_fee) in
      let! u := uuid.uuid4 in
      let! order :=
        lift (Order_init py ("ORD" +:+ upper (substring 0 8 u))
                current_user_id
                (OrderCreate.shop_id order_data)
                items subtotal delivery_fee total_amount
                PENDING
                (OrderCreate.delivery_type order_data)
                (OrderCreate.delivery_address order_data)
                (OrderCreate.customer_notes order_data)) in
      let! created_order := db_service.create_order order in
      Ret created_order
  end.

Definition create_order (py : Python) (order_data : OrderCreate.t)
    (current_user_id : Text) : Prog Order.t :=
  try_except "Failed to create order"
    (create_order_body py order_data current_user_id).

(** ** Requests running together *)



(** * Vocabulary of the statements *)

(** ** Outcomes and calls *)

(** What [except Exception] makes of an exception that is not an
    [HTTPException]. *)
Definition failed : Exn := HTTPException 500 "Failed to create order".



Definition get_product_call (ci : CartItem.t) : Call :=
  CallProductsGetItem (CartItem.product_id ci).


(** The request with another cart. *)
Definition with_items (order_data : OrderCreate.t) (items : list CartItem.t)
  : OrderCreate.t :=
  OrderCreate.mk (OrderCreate.shop_id order_data) items
                 (OrderCreate.delivery_type order_data)
                 (OrderCreate.delivery_address order_data)
                 (OrderCreate.customer_notes order_data).

(** ** Strings that [_deserialize_datetime] looks at *)

(** The string holds a ['T'] and ends with ['Z']. *)
Definition date_like (s : string) : Prop :=
  In "T"%char (list_ascii_of_string s) /\ exists r, s = r +:+ "Z".

(** What an f-string shows of a top-level string attribute once the item
    has been read through [_deserialize_datetime]: the stored string
    itself, unless it is date-like and parses as a timestamp. *)
Inductive shown (py : Python) : Text -> string -> Prop :=
| ShownPlain s :
    ~ date_like s -> shown py (Str s) s
| ShownUnparsed s :
    date_like s ->
    fromisoformat py (replace_char "Z" "+00:00" s) = None ->
    shown py (Str s) s
| ShownParsed s d :
    date_like s ->
    fromisoformat py (replace_char "Z" "+00:00" s) = Some d ->
    shown py (Str s) (datetime_str py d)
| ShownDatetime d :
    shown py (Datetime d) (datetime_str py d).

(** ** The shop check *)

(** The shop passes the first check: its id is a key, it is stored,
    approved and accepts orders. *)
Definition shop_orderable (S : gmap string Shop.t) (sid : string)
    (shop : Shop.t) : Prop :=
  sid <> EmptyString /\
  S !! sid = Some shop /\
  Shop.status shop = Str "approved" /\
  Shop.accepting_orders shop = true.

(** The ways in which the shop check raises an [HTTPException]. *)
Inductive shop_rejected (S : gmap string Shop.t) (sid : string)
  : Exn -> Prop :=
| ShopMissing :
    sid <> EmptyString ->
    S !! sid = None ->
    shop_rejected S sid (HTTPException 404 "Shop not found")
| ShopNotApproved shop :
    sid <> EmptyString ->
    S !! sid = Some shop ->
    Shop.status shop <> Str "approved" ->
    shop_rejected S sid (HTTPException 404 "Shop not found")
| ShopNotAccepting shop :
    sid <> EmptyString ->
    S !! sid = Some shop ->
    Shop.status shop = Str "approved" ->
    Shop.accepting_orders shop = false ->
    shop_rejected S sid (HTTPException 400 "Shop is not accepting orders").

(** ** The cart lines *)

(** [variant] is the first variant of [product] with id [vid]. *)
Definition variant_of (product : Product.t) (vid : string)
    (variant : ProductVariant.t) : Prop :=
  exists before after,
    Product.variants product = before ++ variant :: after /\
    ProductVariant.variant_id variant = vid /\
    Forall (fun v => ProductVariant.variant_id v <> vid) before.

(** [product] has no variant with id [vid]. *)
Definition no_variant (product : Product.t) (vid : string) : Prop :=
  Forall (fun v => ProductVariant.variant_id v <> vid)
         (Product.variants product).

(** Cart line [ci] names the stored [product] and its [variant]. *)
Definition line_resolves (T : gmap string Product.t) (ci : CartItem.t)
    (product : Product.t) (variant : ProductVariant.t) : Prop :=
  CartItem.product_id ci <> EmptyString /\
  T !! CartItem.product_id ci = Some product /\
  variant_of product (CartItem.variant_id ci) variant.

(** The stored stock is less than the quantity asked for. *)
Definition stock_short (variant : ProductVariant.t) (ci : CartItem.t)
  : Prop :=
  (Decimal.value (ProductVariant.stock_quantity variant)
     < inject_Z (CartItem.quantity ci))%Q.

(** The quantity asked for is at most the stored stock. *)
Definition stock_covers (variant : ProductVariant.t) (ci : CartItem.t)
  : Prop :=
  (inject_Z (CartItem.quantity ci)
     <= Decimal.value (ProductVariant.stock_quantity variant))%Q.

(** The cart line names a product that is not stored, or a variant that
    the stored product does not have. *)
Definition line_not_found (T : gmap string Product.t) (ci : CartItem.t)
  : Prop :=
  CartItem.product_id ci <> EmptyString /\
  (T !! CartItem.product_id ci = None \/
   exists product,
     T !! CartItem.product_id ci = Some product /\
     no_variant product (CartItem.variant_id ci)).

(** The exception with which the loop body leaves the first cart line. *)
Definition line_exn (py : Python) (T : gmap string Product.t)
    (ci : CartItem.t) : Exn :=
  match get_item T (CartItem.product_id ci) with
  | Raised e => e
  | Returned None =>
    HTTPException 404 ("Product " +:+ CartItem.product_id ci +:+ " not found")
  | Returned (Some item) =>
    let product := db_service._deserialize_datetime_product py item in
    match find_variant product (CartItem.variant_id ci) with
    | None =>
      HTTPException 404
        ("Variant " +:+ CartItem.variant_id ci +:+ " not found")
    | Some variant =>
      if Decimal.lt_int (ProductVariant.stock_quantity variant)
                        (CartItem.quantity ci)
      then HTTPException 400
             ("Insufficient stock for " +:+ format py (Product.name product))
      else TypeError
    end
  end.

(** The [Order(...)] built for an empty cart with PICKUP, from the UUID
    [u] drawn for it. *)
Definition empty_order (order_data : OrderCreate.t) (customer_id : string)
    (u : string) : Order.t :=
  Order.mk ("ORD" +:+ upper (substring 0 8 u)) customer_id
           (OrderCreate.shop_id order_data) [] 0%float 0%float
           (0 + 0)%float PENDING
           (OrderCreate.delivery_type order_data)
           (OrderCreate.delivery_address order_data)
           (OrderCreate.customer_notes order_data).

(** ** The handler in closed form *)

(** What the handler does once the shop check has passed, from the world
    [w1] in which the shop lookup is recorded. *)
Definition after_shop_check (py : Python) (order_data : OrderCreate.t)
    (current_user_id : Text) (w1 : World) : Outcome Order.t * World :=
  match OrderCreate.items order_data with
  | ci :: _ =>
    (Raised (except_exn "Failed to create order"
               (line_exn py (products_table w1) ci)),
     log (get_product_call ci) w1)
  | [] =>
    match OrderCreate.delivery_type order_data with
    | DELIVERY => (Raised failed, w1)
    | PICKUP =>
      match current_user_id with
      | Str customer_id =>
        (Raised failed,
         log (CallOrdersPutItem
                (empty_order order_data customer_id
                   (uuid_stream w1 (uuid_next w1))))
             (next_uuid w1))
      | Datetime _ => (Raised failed, next_uuid w1)
      end
    end
  end.

Definition create_order_result (py : Python) (order_data : OrderCreate.t)
    (current_user_id : Text) (w : World) : Outcome Order.t * World :=
  let w1 := log (CallShopsGetItem (OrderCreate.shop_id order_data)) w in
  match get_item (shops_table w) (OrderCreate.shop_id order_data) with
  | Raised e => (Raised (except_exn "Failed to create order" e), w1)
  | Returned None => (Raised (HTTPException 404 "Shop not found"), w1)
  | Returned (Some item) =>
    if negb (text_is (deserialize_value py (Shop.status item)) "approved")
    then (Raised (HTTPException 404 "Shop not found"), w1)
    else if negb (Shop.accepting_orders item)
    then (Raised (HTTPException 400 "Shop is not accepting orders"), w1)
    else after_shop_check py order_data current_user_id w1
  end.

(** ** Programs against fixed shops and products *)





(** ** Readings of the errors that the handler does not meet *)

(** The claim that the error of an insufficient-stock rejection tells the
    available quantity: some reading [available] of the exception gives
    the stored stock at every such rejection. *)
Definition error_tells_available_stock (py : Python) : Prop :=
  exists available : Exn -> Q,
    forall order_data user w shop ci rest product variant,
      shop_orderable (shops_table w) (OrderCreate.shop_id order_data) shop ->
      OrderCreate.items order_data = ci :: rest ->
      line_resolves (products_table w) ci product variant ->
      stock_short variant ci ->
      exists e,
        fst (run (create_order py order_data user) w) = Raised e /\
        (available e
           == Decimal.value (ProductVariant.stock_quantity variant))%Q.



(** * Sample worlds *)

(** [float(n)] for an [int]: the nearest binary64 value. *)
Definition float_of_Z (n : Z) : float :=
  SF2Prim (binary_normalize prec emax n 0 false).

(** A stand-in for Python's library in the examples: it parses one
    timestamp, and converts a [Decimal] by one division. *)
Definition sample_py : Python :=
  {| fromisoformat := fun s =>
       if String.eqb s "2024-01-01T00:00:00+00:00"
       then Some (datetime.mk 2024 1 1 0 0 0 0 (Some 0))
       else None;
     datetime_str := fun _ => "2024-01-01 00:00:00+00:00";
     float_of_decimal := fun d =>
       if (0 <=? Decimal.exponent d)%Z
       then float_of_Z (Decimal.coefficient d * 10 ^ Decimal.exponent d)
       else (float_of_Z (Decimal.coefficient d)
             / float_of_Z (10 ^ (- Decimal.exponent d)))%float |}.

(** A whole number as the table returns it. *)
Definition dec (n : Z) : Decimal.t := Decimal.mk n 0.

(** The shop charges a flat fee of 50; the catalogue is the mock data of
    [main.py]: apples at 120 (stock 50), milk at 60 (stock 5); and a
    product at 19.99 (stock 2) whose name is a timestamp. *)
Definition sample_shop : Shop.t := Shop.mk (Str "approved") true (dec 50).

Definition apples : Product.t :=
  Product.mk (Str "Fresh Apples")
    [ProductVariant.mk "var1" "1kg" (dec 120) (dec 50);
     ProductVariant.mk "var2" "2kg" (dec 220) (dec 25)].

Definition milk : Product.t :=
  Product.mk (Str "Organic Milk")
    [ProductVariant.mk "var3" "1L" (dec 60) (dec 5);
     ProductVariant.mk "var4" "500ml" (dec 35) (dec 15)].

Definition calendar : Product.t :=
  Product.mk (Str "2024-01-01T00:00:00Z")
    [ProductVariant.mk "var5" "wall" (Decimal.mk 1999 (-2)) (dec 2)].

Definition sample_uuids (n : nat) : string :=
  nth n ["3f2a9c1e-7b4d-4e21-9a55-0c1d2e3f4a5b";
         "a81bc81b-dead-4e5d-abff-90865d1e13b1";
         "0e37df36-f698-11e6-8dd4-cb9ced3df976";
         "16fd2706-8baf-433b-82eb-8c7fada847da";
         "7c9e6679-7425-40de-944b-e07fc1f90ae7"]
        "ffffffff-ffff-4fff-bfff-ffffffffffff".

Definition sample_world : World :=
  mkWorld (<["shop1" := sample_shop]> ∅)
          (<["prod1" := apples]>
             (<["prod2" := milk]> (<["prod3" := calendar]> ∅)))
          ∅ sample_uuids 0 [].

Definition sample_cart : list CartItem.t :=
  [CartItem.mk "prod1" "var1" 2; CartItem.mk "prod2" "var3" 1].

Definition sample_request (cart : list CartItem.t) (mode : DeliveryType)
  : OrderCreate.t :=
  OrderCreate.mk "shop1" cart mode None None.

(** The sample world with four litres of milk in stock instead of five. *)
Definition low_stock_world : World :=
  mkWorld (shops_table sample_world)
          (<["prod2" := Product.mk (Str "Organic Milk")
                          [ProductVariant.mk "var3" "1L" (dec 60) (dec 4)]]>
             (products_table sample_world))
          ∅ sample_uuids 0 [].

(** A closed shop: the cart, good or bad, is never looked at. *)
Definition closed_shop_world : World :=
  mkWorld (<["shop1" := Shop.mk (Str "approved") false (dec 50)]> ∅)
          (products_table sample_world) ∅ sample_uuids 0 [].

(** * The other handlers

    Handlers of [customer_api/main.py] and [admin_api/main.py] that read
    the same tables, with the [DynamoDBService] methods they await. They
    act on the world directly; the journal stays the record of the calls
    of [create_order]. The ids of users and orders are plain strings here:
    none of them is a timestamp that [_deserialize_datetime] would turn
    into a [datetime]. *)

(** ** More of [shared/models/base.py] *)

Inductive UserRole := CUSTOMER | MERCHANT | ADMIN.

Module BaseUser.
Record t := mk {
  user_id : string;
  email : string;
  name : string;
  role : UserRole;
  is_active : bool
}.
End BaseUser.

Module Review.
Record t := mk {
  review_id : string;
  customer_id : string;
  shop_id : option string;
  product_id : option string;
  order_id : string;
  rating : Z;
  title : option string;
  comment : option string;
  images : list string;
  is_verified : bool;
  is_approved : bool
}.
End Review.

(** ** More request models *)

Module ReviewCreate.
Record t := mk {
  shop_id : option string;
  product_id : option string;
  order_id : string;
  rating : Z;
  title : option string;
  comment : option string
}.
End ReviewCreate.

(** [OrderStatusUpdate] of [admin_api/main.py]. *)
Module OrderStatusUpdate.
Record t := mk {
  status : OrderStatus;
  admin_notes : option string
}.
End OrderStatusUpdate.

(** ** Exceptions inside a [try] body *)

Inductive Exception :=
| HTTP (status_code : Z) (detail : string)
| KeyError (key : string)
| ValidationError (field : string).

Inductive Attempt (A : Type) :=
| Done (a : A)
| Failed (e : Exception).
Arguments Done {A} a.
Arguments Failed {A} e.

(** [except HTTPException: raise; except Exception: raise
    HTTPException(500, msg)]. *)
Definition reraise_or_500 (msg : string) (e : Exception) : Exn :=
  match e with
  | HTTP c d => HTTPException c d
  | _ => HTTPException 500 msg
  end.

(** [Review(...)]: the model declares [rating] with [ge=1, le=5], so the
    constructor raises a validation error for any other rating. *)
Definition Review_init (review_id customer_id : string)
    (shop_id product_id : option string) (order_id : string) (rating : Z)
    (title comment : option string) (is_verified : bool)
  : Attempt Review.t :=
  if ((1 <=? rating) && (rating <=? 5))%Z
  then Done (Review.mk review_id customer_id shop_id product_id order_id
                       rating title comment [] is_verified true)
  else Failed (ValidationError "rating").

(** ** [DynamoDBService], as functions of the world *)

Module dynamodb.

(** [get_item(Key={'order_id': order_id})] *)
Definition get_order (order_id : string) (w : World) : option Order.t :=
  orders_table w !! order_id.

Definition with_status (order : Order.t) (status : OrderStatus) : Order.t :=
  Order.mk (Order.order_id order) (Order.customer_id order)
           (Order.shop_id order) (Order.items order) (Order.subtotal order)
           (Order.delivery_fee order) (Order.total_amount order) status
           (Order.delivery_type order) (Order.delivery_address order)
           (Order.customer_notes order).

(** [update_item(Key={'order_id': order_id}, SET status, updated_at)] with
    [ReturnValues="ALL_NEW"], when [stored] is the item under the key: the
    item with the new status replaces it and is returned. (Without an item
    under the key the table service would create one that holds the key,
    the status and the stamp only; that is no order record, and no handler
    here calls the method before it has found the order.) *)
Definition update_order_status (order_id : string) (stored : Order.t)
    (status : OrderStatus) (w : World) : Order.t * World :=
  let updated := with_status stored status in
  (updated,
   mkWorld (shops_table w) (products_table w)
           (<[order_id := updated]> (orders_table w))
           (uuid_stream w) (uuid_next w) (journal w)).

(** [get_item(Key={'user_id': user_id})] on the users table. *)
Definition get_user (users : gmap string BaseUser.t) (user_id : string)
  : option BaseUser.t :=
  users !! user_id.

End dynamodb.

(** ** [google_auth_service.verify_jwt_token] *)

(** What [jwt.decode] does with a token: the payload, or one of the two
    errors the method catches. *)
Inductive JwtDecode :=
| Decoded (payload : gmap string string)
| ExpiredSignatureError
| InvalidTokenError.

Module google_auth_service.
Section Jwt.
Variable jwt_decode : string -> JwtDecode.

Definition verify_jwt_token (token : string) : Attempt (gmap string string) :=
  match jwt_decode token with
  | Decoded payload => Done payload
  | ExpiredSignatureError => Failed (HTTP 401 "Token has expired")
  | InvalidTokenError => Failed (HTTP 401 "Invalid token")
  end.
End Jwt.
End google_auth_service.

(** ** [customer_api/main.py] *)

Module customer_api.

Section Auth.
Variable jwt_decode : string -> JwtDecode.

(** The statements inside [try:] of [get_current_user]. *)
Definition get_current_user_body (users : gmap string BaseUser.t)
    (token : string) : Attempt BaseUser.t :=
  match google_auth_service.verify_jwt_token jwt_decode token with
  | Failed e => Failed e
  | Done user_data =>
    match user_data !! "user_id" with
    | None => Failed (KeyError "user_id")
    | Some user_id =>
      match dynamodb.get_user users user_id with
      | None => Failed (HTTP 404 "User not found")
      | Some user => Done user
      end
    end
  end.

(** [except Exception] is the only clause: it also catches the
    [HTTPException]s raised in the body. *)
Definition get_current_user (users : gmap string BaseUser.t)
    (token : string) : Outcome BaseUser.t :=
  match get_current_user_body users token with
  | Done user => Returned user
  | Failed _ => Raised (HTTPException 401 "Invalid authentication")
  end.
End Auth.

(** [get_shop]: the lookup of [db_service.get_shop], with its
    [_deserialize_datetime]; an exception of the lookup is caught by
    [except Exception]. *)
Definition get_shop (py : Python) (shop_id : string) (w : World)
  : Outcome Shop.t :=
  match get_item (shops_table w) shop_id with
  | Raised _ => Raised (HTTPException 500 "Failed to fetch shop")
  | Returned None => Raised (HTTPException 404 "Shop not found")
  | Returned (Some item) =>
    let shop := db_service._deserialize_datetime_shop py item in
    if negb (text_is (Shop.status shop) "approved")
    then Raised (HTTPException 404 "Shop not found")
    else Returned shop
  end.

(** The statements inside [try:] of [create_review]. The UUID is drawn
    when the arguments of [Review(...)] are evaluated, after the three
    checks on the order. *)
Definition create_review_body (review_data : ReviewCreate.t)
    (current_user_id : string) (w : World) : Attempt Review.t * World :=
  match dynamodb.get_order (ReviewCreate.order_id review_data) w with
  | None => (Failed (HTTP 404 "Order not found"), w)
  | Some order =>
    if negb (String.eqb (Order.customer_id order) current_user_id)
    then (Failed (HTTP 403 "Access denied"), w)
    else
      match Order.status order with
      | DELIVERED =>
        let '(u, w') := handle Uuid4 w in
        (Review_init u current_user_id
                     (ReviewCreate.shop_id review_data)
                     (ReviewCreate.product_id review_data)
                     (ReviewCreate.order_id review_data)
                     (ReviewCreate.rating review_data)
                     (ReviewCreate.title review_data)
                     (ReviewCreate.comment review_data)
                     true,
         w')
      | _ => (Failed (HTTP 400 "Can only review delivered orders"), w)
      end
  end.

Definition create_review (review_data : ReviewCreate.t)
    (current_user_id : string) (w : World) : Outcome Review.t * World :=
  match create_review_body review_data current_user_id w with
  | (Done review, w') => (Returned review, w')
  | (Failed e, w') =>
    (Raised (reraise_or_500 "Failed to create review" e), w')
  end.

End customer_api.

(** ** [admin_api/main.py] *)

Module admin_api.

Section Auth.
Variable jwt_decode : string -> JwtDecode.

Definition get_current_admin_body (users : gmap string BaseUser.t)
    (token : string) : Attempt BaseUser.t :=
  match google_auth_service.verify_jwt_token jwt_decode token with
  | Failed e => Failed e
  | Done user_data =>
    match user_data !! "user_id" with
    | None => Failed (KeyError "user_id")
    | Some user_id =>
      match dynamodb.get_user users user_id with
      | None => Failed (HTTP 404 "User not found")
      | Some user =>
        match BaseUser.role user with
        | ADMIN => Done user
        | _ => Failed (HTTP 403 "Access denied. Admin role required.")
        end
      end
    end
  end.

Definition get_current_admin (users : gmap string BaseUser.t)
    (token : string) : Outcome BaseUser.t :=
  match get_current_admin_body users token with
  | Done user => Returned user
  | Failed _ => Raised (HTTPException 401 "Invalid authentication")
  end.
End Auth.

Definition get_order (order_id : string) (w : World) : Outcome Order.t :=
  match dynamodb.get_order order_id w with
  | None => Raised (HTTPException 404 "Order not found")
  | Some order => Returned order
  end.

(** The [updates] dictionary that the handler builds, notes included, is
    not passed on: only the status reaches the table. *)
Definition update_order_status (order_id : string)
    (status_data : OrderStatusUpdate.t) (w : World)
  : Outcome Order.t * World :=
  match dynamodb.get_order order_id w with
  | None => (Raised (HTTPException 404 "Order not found"), w)
  | Some order =>
    let '(updated_order, w') :=
      dynamodb.update_order_status order_id order
        (OrderStatusUpdate.status status_data) w in
    (Returned updated_order, w')
  end.

End admin_api.

(** ** Sample users *)

(** Tokens ["alice"] and ["root"] decode to users, ["old"] has expired,
    ["nouser"] carries no user id, anything else is invalid. *)
Definition sample_jwt_decode (token : string) : JwtDecode :=
  if String.eqb token "alice" then Decoded (<["user_id" := "u1"]> ∅)
  else if String.eqb token "root" then Decoded (<["user_id" := "u0"]> ∅)
  else if String.eqb token "ghost" then Decoded (<["user_id" := "u9"]> ∅)
  else if String.eqb token "old" then ExpiredSignatureError
  else if String.eqb token "nouser" then Decoded (<["email" := "x@y"]> ∅)
  else InvalidTokenError.

Definition sample_users : gmap string BaseUser.t :=
  <["u1" := BaseUser.mk "u1" "alice@example.org" "Alice" CUSTOMER false]>
    (<["u0" := BaseUser.mk "u0" "root@example.org" "Root" ADMIN true]> ∅).

(** * Tactics *)

(** The shop of a sample world passes the shop check. *)
Ltac orderable_sample :=
  split; [discriminate|];
  split; [vm_compute; reflexivity|];
  split; reflexivity.

(** * Running programs: general facts *)

Lemma run_bind {A B} (p : Prog A) (f : A -> Prog B) (w : World) :
  run (bind p f) w =
  match run p w with
  | (Returned a, w') => run (f a) w'
  | (Raised e, w') => (Raised e, w')
  end.
Proof.
  revert w. induction p as [a | e | X ev k IH]; intros w; simpl; trivial.
  destruct (handle ev w) as [x w']. apply IH.
Qed.

Lemma run_try_except {A} (msg : string) (p : Prog A) (w : World) :
  run (try_except msg p) w =
  (match fst (run p w) with
   | Returned a => Returned a
   | Raised e => Raised (except_exn msg e)
   end, snd (run p w)).
Proof.
  revert w. induction p as [a | e | X ev k IH]; intros w; simpl.
  - reflexivity.
  - reflexivity.
  - destruct (handle ev w) as [x w']. apply IH.
Qed.

(** ** The orders table takes no order *)

(** [order.dict()] always holds a [float]: the subtotal. *)
Lemma Order_dict_unserializable (o : Order.t) :
  serializable (PyDict (Order.dict o)) = false.
Proof.
  unfold Order.dict. cbn [serializable forallb snd].
  apply andb_false_r.
Qed.

Lemma put_item_check_raises (o : Order.t) :
  put_item_check o = Raised TypeError.
Proof.
  unfold put_item_check. rewrite Order_dict_unserializable. reflexivity.
Qed.

Lemma put_item_raises (o : Order.t) (w : World) :
  put_item o w = (Raised TypeError, w).
Proof. unfold put_item. rewrite put_item_check_raises. reflexivity. Qed.



(** * Python values *)

Lemma Qpower_10_pos k : (0 <= k)%Z -> (0 < inject_Z (10 ^ k))%Q.
Proof.
  intros Hk. change 0%Q with (inject_Z 0). rewrite <- Zlt_Qlt.
  apply Z.pow_pos_nonneg; lia.
Qed.

(** [Decimal.lt_int] compares the numbers. *)
Lemma lt_int_spec (d : Decimal.t) (n : Z) :
  Decimal.lt_int d n = true <-> (Decimal.value d < inject_Z n)%Q.
Proof.
  unfold Decimal.lt_int, Decimal.value.
  destruct d as [c e]. cbn [Decimal.coefficient Decimal.exponent].
  destruct (Z.leb_spec 0 e) as [He|He].
  - rewrite <- (Zpower_Qpower 10 e He), <- inject_Z_mult, <- Zlt_Qlt.
    apply Z.ltb_lt.
  - assert (Hk : (0 <= - e)%Z) by lia.
    pose proof (Qpower_10_pos (- e) Hk) as Hpos.
    assert (He' : (inject_Z 10 ^ e == / inject_Z (10 ^ (- e)))%Q).
    { rewrite (Zpower_Qpower 10 (- e) Hk).
      rewrite <- Qpower_opp. rewrite Z.opp_involutive. reflexivity. }
    rewrite He'. rewrite Z.ltb_lt. rewrite Zlt_Qlt, inject_Z_mult.
    split; intros H.
    + apply Qlt_shift_div_r; assumption.
    + apply (Qmult_lt_r _ _ (/ inject_Z (10 ^ (- e)))).
      * apply Qinv_lt_0_compat. exact Hpos.
      * rewrite <- Qmult_assoc, Qmult_inv_r, Qmult_1_r; [exact H|].
        intros Hz. rewrite Hz in Hpos. discriminate.
Qed.

Lemma lt_int_false (d : Decimal.t) (n : Z) :
  Decimal.lt_int d n = false <-> (inject_Z n <= Decimal.value d)%Q.
Proof.
  split.
  - intros H. apply Qnot_lt_le. intros Hlt.
    apply lt_int_spec in Hlt. congruence.
  - intros H. destruct (Decimal.lt_int d n) eqn:E; [|reflexivity].
    apply lt_int_spec in E. exfalso. apply (Qlt_not_le _ _ E H).
Qed.

Lemma contains_char_In c s :
  contains_char c s = true <-> In c (list_ascii_of_string s).
Proof.
  induction s as [|a r IH]; simpl.
  - split; [discriminate | contradiction].
  - rewrite orb_true_iff, IH, Ascii.eqb_eq. reflexivity.
Qed.

Lemma append_nil_l s : EmptyString +:+ s = s.
Proof. reflexivity. Qed.

Lemma append_cons a r s : String a r +:+ s = String a (r +:+ s).
Proof. reflexivity. Qed.

Lemma ends_with_char_spec c s :
  ends_with_char c s = true <-> exists r, s = r +:+ String c EmptyString.
Proof.
  induction s as [|a r IH].
  - simpl. split; [discriminate|].
    intros [[|b r] H]; rewrite ?append_cons, ?append_nil_l in H; discriminate.
  - destruct r as [|b r'].
    + simpl. rewrite Ascii.eqb_eq. split.
      * intros ->. exists EmptyString. reflexivity.
      * intros [[|x [|y r]] H];
          rewrite ?append_cons, ?append_nil_l in H; congruence.
    + change (ends_with_char c (String a (String b r')))
        with (ends_with_char c (String b r')).
      rewrite IH. split.
      * intros [r ->]. exists (String a r). reflexivity.
      * intros [[|x r] H]; rewrite ?append_cons, ?append_nil_l in H;
          [discriminate|].
        injection H as -> H. exists r. exact H.
Qed.

Lemma date_like_spec s :
  contains_char "T" s && ends_with_char "Z" s = true <-> date_like s.
Proof.
  unfold date_like. rewrite andb_true_iff, contains_char_In,
    ends_with_char_spec. reflexivity.
Qed.

(** What [_deserialize_datetime] leaves of a stored string is what
    [shown] says. *)
Lemma shown_deserialized py value :
  shown py value (format py (deserialize_value py value)).
Proof.
  destruct value as [s|d]; simpl; [|constructor].
  destruct (contains_char "T" s && ends_with_char "Z" s) eqn:E.
  - apply date_like_spec in E.
    destruct (fromisoformat py (replace_char "Z" "+00:00" s)) as [d|] eqn:F;
      simpl.
    + apply ShownParsed; assumption.
    + apply ShownUnparsed; assumption.
  - simpl. apply ShownPlain. rewrite <- date_like_spec. congruence.
Qed.

Lemma shown_unique py value s1 s2 :
  shown py value s1 -> shown py value s2 -> s1 = s2.
Proof.
  intros H1 H2. destruct H1; inversion H2; subst; try congruence;
    contradiction.
Qed.

(** Only the stored string ["approved"] reads as approved. *)
Lemma approved_deserialized py value :
  text_is (deserialize_value py value) "approved" = true
  <-> value = Str "approved".
Proof.
  destruct value as [s|d]; simpl.
  2:{ split; discriminate. }
  destruct (String.eqb_spec s "approved") as [->|Hne].
  - simpl. split; reflexivity.
  - split; [|congruence].
    destruct (contains_char "T" s && ends_with_char "Z" s);
      [destruct (fromisoformat py _)|]; simpl; try discriminate;
      intros H; apply String.eqb_eq in H; contradiction.
Qed.

Lemma get_item_key {V} (table : gmap string V) key :
  key <> EmptyString -> get_item table key = Returned (table !! key).
Proof.
  intros H. unfold get_item.
  destruct (String.eqb_spec key EmptyString); [contradiction | reflexivity].
Qed.

(** * The variant of a cart line *)

Lemma find_variant_of product vid variant :
  variant_of product vid variant -> find_variant product vid = Some variant.
Proof.
  intros (before & after & Hv & Hid & Hb). unfold find_variant. rewrite Hv.
  clear Hv. induction Hb as [|v before Hne _ IH]; simpl.
  - rewrite Hid, String.eqb_refl. reflexivity.
  - destruct (String.eqb_spec (ProductVariant.variant_id v) vid);
      [contradiction | exact IH].
Qed.

Lemma find_no_variant product vid :
  no_variant product vid -> find_variant product vid = None.
Proof.
  unfold no_variant, find_variant. intros H.
  induction H as [|v l Hne _ IH]; simpl; [reflexivity|].
  destruct (String.eqb_spec (ProductVariant.variant_id v) vid);
    [contradiction | exact IH].
Qed.

Lemma find_variant_cases product vid :
  (exists variant, variant_of product vid variant) \/ no_variant product vid.
Proof.
  unfold variant_of, no_variant.
  induction (Product.variants product) as [|v l IH].
  - right. constructor.
  - destruct (String.eqb_spec (ProductVariant.variant_id v) vid) as [E|E].
    + left. exists v, [], l. repeat split; trivial.
    + destruct IH as [(x & before & after & -> & Hid & Hb) | Hn].
      * left. exists x, (v :: before), after. repeat split; trivial.
        constructor; assumption.
      * right. constructor; assumption.
Qed.

Lemma variant_of_unique product vid v1 v2 :
  variant_of product vid v1 -> variant_of product vid v2 -> v1 = v2.
Proof.
  intros H1 H2. apply find_variant_of in H1, H2. congruence.
Qed.

Lemma variant_of_not_missing product vid v :
  variant_of product vid v -> ~ no_variant product vid.
Proof.
  intros H1 H2. apply find_variant_of in H1. apply find_no_variant in H2.
  congruence.
Qed.

(** * The first cart line *)

Lemma line_exn_empty_key py T ci :
  CartItem.product_id ci = EmptyString -> line_exn py T ci = ClientError.
Proof. intros H. unfold line_exn. rewrite H. reflexivity. Qed.

Lemma line_exn_no_product py T ci :
  CartItem.product_id ci <> EmptyString ->
  T !! CartItem.product_id ci = None ->
  line_exn py T ci =
  HTTPException 404 ("Product " +:+ CartItem.product_id ci +:+ " not found").
Proof.
  intros Hk Hp. unfold line_exn. rewrite (get_item_key _ _ Hk), Hp.
  reflexivity.
Qed.

Lemma line_exn_no_variant py T ci product :
  CartItem.product_id ci <> EmptyString ->
  T !! CartItem.product_id ci = Some product ->
  no_variant product (CartItem.variant_id ci) ->
  line_exn py T ci =
  HTTPException 404 ("Variant " +:+ CartItem.variant_id ci +:+ " not found").
Proof.
  intros Hk Hp Hn. unfold line_exn. rewrite (get_item_key _ _ Hk), Hp.
  cbv zeta.
  rewrite (find_no_variant (db_service._deserialize_datetime_product py product)
             _ Hn).
  reflexivity.
Qed.

Lemma line_exn_short py T ci product variant :
  line_resolves T ci product variant ->
  stock_short variant ci ->
  line_exn py T ci =
  HTTPException 400
    ("Insufficient stock for "
       +:+ format py (deserialize_value py (Product.name product))).
Proof.
  intros (Hk & Hp & Hv) Hs. unfold line_exn.
  rewrite (get_item_key _ _ Hk), Hp. cbv zeta.
  rewrite (find_variant_of (db_service._deserialize_datetime_product py product)
             _ _ Hv).
  apply lt_int_spec in Hs. rewrite Hs. reflexivity.
Qed.

Lemma line_exn_covered py T ci product variant :
  line_resolves T ci product variant ->
  stock_covers variant ci ->
  line_exn py T ci = TypeError.
Proof.
  intros (Hk & Hp & Hv) Hs. unfold line_exn.
  rewrite (get_item_key _ _ Hk), Hp. cbv zeta.
  rewrite (find_variant_of (db_service._deserialize_datetime_product py product)
             _ _ Hv).
  apply lt_int_false in Hs. rewrite Hs. reflexivity.
Qed.

(** The loop never gets past its first line: a line that passes the three
    checks raises at [subtotal += item_total]. *)
Lemma run_cart_loop_cons py ci rest items subtotal w :
  run (cart_loop py (ci :: rest) items subtotal) w =
  (Raised (line_exn py (products_table w) ci), log (get_product_call ci) w).
Proof.
  cbn [cart_loop]. rewrite run_bind.
  unfold db_service.get_product, call, line_exn, get_product_call.
  cbn [bind run handle].
  destruct (get_item (products_table w) (CartItem.product_id ci))
    as [[item|]|e]; cbn [lift bind run]; try reflexivity.
  cbv zeta.
  destruct (find_variant _ _) as [variant|]; [|reflexivity].
  destruct (Decimal.lt_int _ _); reflexivity.
Qed.

(** * The handler as a whole *)

Lemma run_create_order py order_data user w :
  run (create_order py order_data user) w
  = create_order_result py order_data user w.
Proof.
  unfold create_order, create_order_result. rewrite run_try_except.
  unfold create_order_body. rewrite run_bind.
  unfold db_service.get_shop, call. cbn [bind run handle].
  destruct (get_item (shops_table w) (OrderCreate.shop_id order_data))
    as [[item|]|e]; cbn [lift bind run fst snd]; try reflexivity.
  - cbn [db_service._deserialize_datetime_shop Shop.status
         Shop.accepting_orders].
    destruct (negb (text_is _ _)); [reflexivity|].
    destruct (negb (Shop.accepting_orders item)); [reflexivity|].
    unfold after_shop_check.
    destruct (OrderCreate.items order_data) as [|ci rest].
    + unfold uuid.uuid4, trigger, Order_init, db_service.create_order, call.
      destruct (OrderCreate.delivery_type order_data) eqn:Hd;
        [reflexivity|].
      destruct user as [customer_id|d];
        cbn [cart_loop shop_delivery_fee float_add str_field OrderItems_init
             float_field lift bind run handle fst snd];
        rewrite ?put_item_raises; unfold empty_order; rewrite ?Hd;
        reflexivity.
    + rewrite run_bind, run_cart_loop_cons. reflexivity.
Qed.

(** The three ways of the shop check. *)
Lemma shop_cases (S : gmap string Shop.t) (sid : string) :
  sid = EmptyString \/
  (exists e, shop_rejected S sid e) \/
  (exists shop, shop_orderable S sid shop).
Proof.
  destruct (String.eqb_spec sid EmptyString) as [E|E]; [left; exact E|].
  right. destruct (S !! sid) as [shop|] eqn:Hs.
  - assert (Hdec : Shop.status shop = Str "approved" \/
                   Shop.status shop <> Str "approved").
    { destruct (Shop.status shop) as [s|d]; [|right; discriminate].
      destruct (String.eqb_spec s "approved") as [->|Hne];
        [left; reflexivity | right; congruence]. }
    destruct Hdec as [Ha|Ha].
    + destruct (Shop.accepting_orders shop) eqn:Hacc.
      * right. exists shop. repeat split; assumption.
      * left. eexists. eapply ShopNotAccepting; eassumption.
    + left. eexists. eapply ShopNotApproved; eassumption.
  - left. eexists. apply ShopMissing; assumption.
Qed.

Lemma create_order_empty_shop_id py order_data user w :
  OrderCreate.shop_id order_data = EmptyString ->
  create_order_result py order_data user w =
  (Raised failed, log (CallShopsGetItem EmptyString) w).
Proof.
  intros H. unfold create_order_result. rewrite H. reflexivity.
Qed.

Lemma create_order_shop_rejected py order_data user w e :
  shop_rejected (shops_table w) (OrderCreate.shop_id order_data) e ->
  create_order_result py order_data user w =
  (Raised e, log (CallShopsGetItem (OrderCreate.shop_id order_data)) w).
Proof.
  intros H. unfold create_order_result. cbv zeta.
  destruct H as [Hk Hs | shop Hk Hs Hst | shop Hk Hs Hst Hacc];
    rewrite (get_item_key _ _ Hk), Hs; try reflexivity.
  - destruct (text_is (deserialize_value py (Shop.status shop)) "approved")
      eqn:E; [|reflexivity].
    apply approved_deserialized in E. contradiction.
  - rewrite (proj2 (approved_deserialized py _) Hst), Hacc. reflexivity.
Qed.

Lemma create_order_orderable py order_data user w shop :
  shop_orderable (shops_table w) (OrderCreate.shop_id order_data) shop ->
  create_order_result py order_data user w =
  after_shop_check py order_data user
    (log (CallShopsGetItem (OrderCreate.shop_id order_data)) w).
Proof.
  intros (Hk & Hs & Hst & Hacc). unfold create_order_result. cbv zeta.
  rewrite (get_item_key _ _ Hk), Hs.
  rewrite (proj2 (approved_deserialized py _) Hst), Hacc. reflexivity.
Qed.

Lemma shop_rejected_not_orderable S sid e shop :
  shop_rejected S sid e -> shop_orderable S sid shop -> False.
Proof.
  intros Hr (Hk & Hs & Hst & Hacc).
  destruct Hr; congruence.
Qed.




(** The outcome for a request whose shop check passes and whose cart has
    a first line. *)
Lemma create_order_first_line py order_data user w shop ci rest :
  shop_orderable (shops_table w) (OrderCreate.shop_id order_data) shop ->
  OrderCreate.items order_data = ci :: rest ->
  run (create_order py order_data user) w =
  (Raised (except_exn "Failed to create order"
             (line_exn py (products_table w) ci)),
   log (get_product_call ci)
       (log (CallShopsGetItem (OrderCreate.shop_id order_data)) w)).
Proof.
  intros Hshop Hcart. rewrite run_create_order.
  rewrite (create_order_orderable _ _ _ _ _ Hshop).
  unfold after_shop_check. rewrite Hcart. reflexivity.
Qed.

Lemma journal_log c w : journal (log c w) = journal w ++ [c].
Proof. reflexivity. Qed.

Lemma journal_log2 c1 c2 w :
  journal (log c2 (log c1 w)) = journal w ++ [c1; c2].
Proof. simpl. rewrite <- app_assoc. reflexivity. Qed.

(** * Pricing *)

(** C1. The pricing that the claim describes is never carried out. For
    every request whose shop is orderable and whose first cart line passes
    the three checks of the loop -- product stored, variant found,
    quantity within stock -- the line total is a [Decimal], adding it to
    the [float] subtotal raises, and [create_order] answers 500 "Failed to
    create order": no later line is looked up, the orders table is never
    asked to store anything, and no order is stored. The example of the
    specification (fee 50, two apples at 120 and one milk at 60,
    DELIVERY) is such a request. *)
Theorem accepted_line_raises
    py order_data user w shop ci rest product variant :
  shop_orderable (shops_table w) (OrderCreate.shop_id order_data) shop ->
  OrderCreate.items order_data = ci :: rest ->
  line_resolves (products_table w) ci product variant ->
  stock_covers variant ci ->
  let R := run (create_order py order_data user) w in
  fst R = Raised (HTTPException 500 "Failed to create order") /\
  journal (snd R) =
    journal w ++ [CallShopsGetItem (OrderCreate.shop_id order_data);
                  CallProductsGetItem (CartItem.product_id ci)] /\
  orders_table (snd R) = orders_table w.
Proof.
  intros Hshop Hcart Hline Hstock R. subst R.
  rewrite (create_order_first_line _ _ _ _ _ _ _ Hshop Hcart).
  rewrite (line_exn_covered _ _ _ _ _ Hline Hstock).
  cbn [fst snd]. rewrite journal_log2. repeat split.
Qed.

Lemma accepted_line_raises_witness :
  let R := run (create_order sample_py (sample_request sample_cart DELIVERY)
                  (Str "c1")) sample_world in
  fst R = Raised (HTTPException 500 "Failed to create order") /\
  journal (snd R) =
    journal sample_world ++ [CallShopsGetItem "shop1";
                             CallProductsGetItem "prod1"] /\
  orders_table (snd R) = orders_table sample_world.
Proof.
  apply (accepted_line_raises sample_py
           (sample_request sample_cart DELIVERY) (Str "c1") sample_world
           sample_shop (CartItem.mk "prod1" "var1" 2)
           [CartItem.mk "prod2" "var3" 1] apples
           (ProductVariant.mk "var1" "1kg" (dec 120) (dec 50))).
  - orderable_sample.
  - reflexivity.
  - split; [discriminate|]. split; [vm_compute; reflexivity|].
    exists [], [ProductVariant.mk "var2" "2kg" (dec 220) (dec 25)].
    repeat split. constructor.
  - vm_compute. discriminate.
Defined.

(** The same cart with PICKUP fares no better. *)
Example sample_pickup :
  fst (run (create_order sample_py (sample_request sample_cart PICKUP)
              (Str "c1")) sample_world)
  = Raised (HTTPException 500 "Failed to create order").
Proof. vm_compute. reflexivity. Qed.

(** * No partial writes *)



(** * The empty cart *)




(** * Insufficient stock *)

(** C4 as stated fails. Six litres of milk are refused with the same
    exception whether five are in stock or four: the detail names the
    product and nothing else, so no reading of the error gives the
    available quantity (nor the requested one). *)
Lemma insufficient_stock_error_lacks_quantities :
  let d := sample_request [CartItem.mk "prod2" "var3" 6] PICKUP in
  fst (run (create_order sample_py d (Str "c1")) sample_world)
  = Raised (HTTPException 400 "Insufficient stock for Organic Milk") /\
  fst (run (create_order sample_py d (Str "c1")) low_stock_world)
  = Raised (HTTPException 400 "Insufficient stock for Organic Milk") /\
  ~ error_tells_available_stock sample_py.
Proof.
  cbv zeta. split; [vm_compute; reflexivity|].
  split; [vm_compute; reflexivity|].
  intros (available & Hav).
  set (d := sample_request [CartItem.mk "prod2" "var3" 6] PICKUP).
  destruct (Hav d (Str "c1") sample_world sample_shop
              (CartItem.mk "prod2" "var3" 6) [] milk
              (ProductVariant.mk "var3" "1L" (dec 60) (dec 5)))
    as (e1 & He1 & Ha1).
  { orderable_sample. }
  { reflexivity. }
  { split; [discriminate|]. split; [vm_compute; reflexivity|].
    exists [], [ProductVariant.mk "var4" "500ml" (dec 35) (dec 15)].
    repeat split. constructor. }
  { vm_compute. reflexivity. }
  destruct (Hav d (Str "c1") low_stock_world sample_shop
              (CartItem.mk "prod2" "var3" 6) []
              (Product.mk (Str "Organic Milk")
                 [ProductVariant.mk "var3" "1L" (dec 60) (dec 4)])
              (ProductVariant.mk "var3" "1L" (dec 60) (dec 4)))
    as (e2 & He2 & Ha2).
  { orderable_sample. }
  { reflexivity. }
  { split; [discriminate|]. split; [vm_compute; reflexivity|].
    exists [], []. repeat split. constructor. }
  { vm_compute. reflexivity. }
  assert (He : e1 = e2).
  { assert (H : Raised (A := Order.t) e1 = Raised e2).
    { rewrite <- He1, <- He2. vm_compute. reflexivity. }
    congruence. }
  subst e2. rewrite Ha1 in Ha2. vm_compute in Ha2. discriminate.
Qed.

(** C4, amended. When the shop is orderable and the first cart line names
    a stored product and one of its variants whose stored stock is less
    than the quantity asked for, [create_order] fails with status 400 and
    the detail "Insufficient stock for " followed by the product name as
    the f-string shows it after [_deserialize_datetime] -- the stored
    name, unless that is date-like and parses as a timestamp. The error
    carries neither the requested nor the available quantity. Only the
    product is looked up, and nothing is stored. *)
Theorem insufficient_stock_rejected
    py order_data user w shop ci rest product variant :
  shop_orderable (shops_table w) (OrderCreate.shop_id order_data) shop ->
  OrderCreate.items order_data = ci :: rest ->
  line_resolves (products_table w) ci product variant ->
  stock_short variant ci ->
  let R := run (create_order py order_data user) w in
  (exists name,
     shown py (Product.name product) name /\
     fst R = Raised (HTTPException 400 ("Insufficient stock for " +:+ name))) /\
  journal (snd R) =
    journal w ++ [CallShopsGetItem (OrderCreate.shop_id order_data);
                  CallProductsGetItem (CartItem.product_id ci)] /\
  orders_table (snd R) = orders_table w.
Proof.
  intros Hshop Hcart Hline Hstock R. subst R.
  rewrite (create_order_first_line _ _ _ _ _ _ _ Hshop Hcart).
  rewrite (line_exn_short _ _ _ _ _ Hline Hstock).
  cbn [fst snd]. rewrite journal_log2. repeat split.
  eexists. split; [apply shown_deserialized | reflexivity].
Qed.

(** Three calendars, two in stock: the name of the product is a
    timestamp, and the detail shows it as a [datetime]. *)
Lemma insufficient_stock_rejected_witness :
  let d := sample_request [CartItem.mk "prod3" "var5" 3;
                           CartItem.mk "prod1" "var1" 1] DELIVERY in
  let R := run (create_order sample_py d (Str "c1")) sample_world in
  (exists name,
     shown sample_py (Str "2024-01-01T00:00:00Z") name /\
     fst R = Raised (HTTPException 400 ("Insufficient stock for " +:+ name))) /\
  journal (snd R) =
    journal sample_world ++ [CallShopsGetItem "shop1";
                             CallProductsGetItem "prod3"] /\
  orders_table (snd R) = orders_table sample_world.
Proof.
  apply (insufficient_stock_rejected sample_py
           (sample_request [CartItem.mk "prod3" "var5" 3;
                            CartItem.mk "prod1" "var1" 1] DELIVERY)
           (Str "c1") sample_world sample_shop
           (CartItem.mk "prod3" "var5" 3) [CartItem.mk "prod1" "var1" 1]
           calendar
           (ProductVariant.mk "var5" "wall" (Decimal.mk 1999 (-2)) (dec 2))).
  - orderable_sample.
  - reflexivity.
  - split; [discriminate|]. split; [vm_compute; reflexivity|].
    exists [], []. repeat split. constructor.
  - vm_compute. reflexivity.
Defined.

Example sample_calendar_detail :
  fst (run (create_order sample_py
              (sample_request [CartItem.mk "prod3" "var5" 3] DELIVERY)
              (Str "c1")) sample_world)
  = Raised (HTTPException 400
              "Insufficient stock for 2024-01-01 00:00:00+00:00").
Proof. vm_compute. reflexivity. Qed.

(** * Missing products and variants *)

(** C5 as stated fails. A cart that holds a line with a missing variant
    is not always answered with the 404 that names it: when the shop is
    closed the answer is the 400 of the shop check, and when an earlier
    line asks for more than is in stock the answer is the 400 of that
    line. (When the earlier line is accepted the answer is 500: see
    C1.) *)
Lemma missing_line_not_always_named :
  let missing := CartItem.mk "prod1" "var9" 1 in
  line_not_found (products_table sample_world) missing /\
  fst (run (create_order sample_py (sample_request [missing] PICKUP)
              (Str "c1")) closed_shop_world)
  = Raised (HTTPException 400 "Shop is not accepting orders") /\
  fst (run (create_order sample_py
              (sample_request [CartItem.mk "prod2" "var3" 6; missing] PICKUP)
              (Str "c1")) sample_world)
  = Raised (HTTPException 400 "Insufficient stock for Organic Milk") /\
  fst (run (create_order sample_py
              (sample_request [CartItem.mk "prod1" "var1" 1; missing] PICKUP)
              (Str "c1")) sample_world)
  = Raised (HTTPException 500 "Failed to create order").
Proof.
  cbv zeta. split; [|repeat split; vm_compute; reflexivity].
  split; [discriminate|]. right. exists apples.
  split; [vm_compute; reflexivity|].
  repeat constructor; discriminate.
Qed.

(** C5, amended. When the shop is orderable and the first cart line names
    a product that is not stored, or a variant that the stored product
    does not have, [create_order] fails with 404 and a detail that names
    the missing product id, or else the missing variant id -- whatever
    the other lines of the cart are. Nothing is stored, and the orders
    table is not called. *)
Theorem item_not_found_rejected py order_data user w shop ci rest :
  shop_orderable (shops_table w) (OrderCreate.shop_id order_data) shop ->
  OrderCreate.items order_data = ci :: rest ->
  line_not_found (products_table w) ci ->
  let R := run (create_order py order_data user) w in
  (products_table w !! CartItem.product_id ci = None ->
   fst R = Raised (HTTPException 404
             ("Product " +:+ CartItem.product_id ci +:+ " not found"))) /\
  (forall product,
     products_table w !! CartItem.product_id ci = Some product ->
     fst R = Raised (HTTPException 404
               ("Variant " +:+ CartItem.variant_id ci +:+ " not found"))) /\
  (exists detail, fst R = Raised (HTTPException 404 detail)) /\
  journal (snd R) =
    journal w ++ [CallShopsGetItem (OrderCreate.shop_id order_data);
                  CallProductsGetItem (CartItem.product_id ci)] /\
  orders_table (snd R) = orders_table w.
Proof.
  intros Hshop Hcart (Hk & Hnf) R. subst R.
  rewrite (create_order_first_line _ _ _ _ _ _ _ Hshop Hcart).
  cbn [fst snd]. rewrite journal_log2.
  destruct Hnf as [Hp | (product & Hp & Hv)].
  - rewrite (line_exn_no_product _ _ _ Hk Hp).
    split; [reflexivity|]. split; [congruence|].
    split; [eexists; reflexivity|]. split; reflexivity.
  - rewrite (line_exn_no_variant _ _ _ _ Hk Hp Hv).
    split; [congruence|]. split; [reflexivity|].
    split; [eexists; reflexivity|]. split; reflexivity.
Qed.

(** A missing variant in the first line, a good line after it. *)
Lemma item_not_found_rejected_witness :
  fst (run (create_order sample_py
              (sample_request [CartItem.mk "prod1" "var9" 1;
                               CartItem.mk "prod2" "var3" 1] PICKUP)
              (Str "c1")) sample_world)
  = Raised (HTTPException 404 "Variant var9 not found").
Proof.
  apply (proj1 (proj2
           (item_not_found_rejected sample_py
              (sample_request [CartItem.mk "prod1" "var9" 1;
                               CartItem.mk "prod2" "var3" 1] PICKUP)
              (Str "c1") sample_world sample_shop
              (CartItem.mk "prod1" "var9" 1) [CartItem.mk "prod2" "var3" 1]
              ltac:(orderable_sample)
              eq_refl
              ltac:(split; [discriminate|]; right; exists apples;
                    split; [vm_compute; reflexivity|];
                    repeat constructor; discriminate)))
           apples).
  vm_compute. reflexivity.
Defined.

(** * Quantities that are not positive *)




(** * Order of the checks *)

(** C7 as stated fails. A request whose shop id is the empty string names
    no shop, yet the answer is not the 404 of a missing shop: the lookup
    itself raises, and the handler answers 500. *)
Lemma empty_shop_id_not_shop_unavailable :
  let d := OrderCreate.mk EmptyString sample_cart PICKUP None None in
  let R := run (create_order sample_py d (Str "c1")) sample_world in
  shops_table sample_world !! OrderCreate.shop_id d = None /\
  fst R = Raised (HTTPException 500 "Failed to create order") /\
  journal (snd R) = [CallShopsGetItem EmptyString].
Proof. cbv zeta. repeat split; vm_compute; reflexivity. Qed.

(** C7, amended. The calls of [create_order] come in a fixed order: first
    the shop lookup; then product lookups for a prefix of the cart lines,
    in cart order, and only if the shop is orderable; last, and only if
    every cart line was looked up, at most one call of the orders table.
    When the shop check rejects the shop -- its id is not empty and it is
    missing, not approved or not accepting orders -- the result is that
    rejection and the shop lookup is the only call, whatever the cart
    holds. *)
Theorem checks_in_fixed_order py order_data user w :
  let sid := OrderCreate.shop_id order_data in
  let cart := OrderCreate.items order_data in
  let R := run (create_order py order_data user) w in
  (exists n tail,
     journal (snd R) =
       journal w ++ CallShopsGetItem sid
         :: map get_product_call (take n cart) ++ tail /\
     (n <= length cart)%nat /\
     (tail = [] \/ exists o, tail = [CallOrdersPutItem o]) /\
     (tail <> [] -> n = length cart) /\
     ((0 < n)%nat \/ tail <> [] ->
      exists shop, shop_orderable (shops_table w) sid shop)) /\
  (forall e, shop_rejected (shops_table w) sid e ->
     fst R = Raised e /\
     journal (snd R) = journal w ++ [CallShopsGetItem sid]).
Proof.
  intros sid cart R. subst R sid cart. rewrite run_create_order.
  assert (Hnone : forall w1 : World,
    journal w1 =
      journal w ++ [CallShopsGetItem (OrderCreate.shop_id order_data)] ->
    (forall shop,
       shop_orderable (shops_table w)
         (OrderCreate.shop_id order_data) shop -> False) ->
    exists n tail,
      journal w1 =
        journal w ++ CallShopsGetItem (OrderCreate.shop_id order_data)
          :: map get_product_call (take n (OrderCreate.items order_data))
             ++ tail /\
      (n <= length (OrderCreate.items order_data))%nat /\
      (tail = [] \/ exists o, tail = [CallOrdersPutItem o]) /\
      (tail <> [] -> n = length (OrderCreate.items order_data)) /\
      ((0 < n)%nat \/ tail <> [] ->
       exists shop,
         shop_orderable (shops_table w)
           (OrderCreate.shop_id order_data) shop)).
  { intros w1 Hj _. exists 0%nat, []. rewrite Hj. cbn [take map app].
    split; [reflexivity|]. split; [lia|]. split; [left; reflexivity|].
    split; [congruence|]. intros [H|H]; [lia | congruence]. }
  destruct (shop_cases (shops_table w) (OrderCreate.shop_id order_data))
    as [E | [[e He] | [shop Hshop]]].
  - rewrite (create_order_empty_shop_id _ _ _ _ E). cbn [fst snd]. split.
    + apply Hnone; [rewrite E; reflexivity|].
      intros s (Hk & _). contradiction.
    + intros e He. destruct He; contradiction.
  - rewrite (create_order_shop_rejected _ _ _ _ _ He). cbn [fst snd]. split.
    + apply Hnone; [reflexivity|].
      intros s Hs. exact (shop_rejected_not_orderable _ _ _ _ He Hs).
    + intros e' He'.
      assert (Heq : e = e').
      { pose proof (create_order_shop_rejected py order_data user w _ He)
          as H1.
        pose proof (create_order_shop_rejected py order_data user w _ He')
          as H2.
        congruence. }
      subst e'. split; reflexivity.
  - split.
    2:{ intros e He. exfalso.
        exact (shop_rejected_not_orderable _ _ _ _ He Hshop). }
    rewrite (create_order_orderable _ _ _ _ _ Hshop).
    unfold after_shop_check.
    destruct (OrderCreate.items order_data) as [|ci rest].
    + destruct (OrderCreate.delivery_type order_data);
        [|destruct user as [customer_id|d]]; cbn [snd].
      * exists 0%nat, []. cbn [take map app].
        split; [reflexivity|]. split; [cbn; lia|].
        split; [left; reflexivity|]. split; [congruence|].
        intros _. exists shop. exact Hshop.
      * eexists 0%nat, [CallOrdersPutItem _]. cbn [take map app].
        split; [apply journal_log2|]. split; [cbn; lia|].
        split; [right; eexists; reflexivity|]. split; [reflexivity|].
        intros _. exists shop. exact Hshop.
      * exists 0%nat, []. cbn [take map app].
        split; [reflexivity|]. split; [cbn; lia|].
        split; [left; reflexivity|]. split; [congruence|].
        intros _. exists shop. exact Hshop.
    + exists 1%nat, []. cbn [snd take map app].
      split; [apply journal_log2|]. split; [cbn; lia|].
      split; [left; reflexivity|]. split; [congruence|].
      intros _. exists shop. exact Hshop.
Qed.

(** A closed shop and a cart whose first line names no product: the
    answer is that of the shop check. *)
Lemma checks_in_fixed_order_witness :
  fst (run (create_order sample_py
              (sample_request [CartItem.mk "nothing" "var1" 1] DELIVERY)
              (Str "c1")) closed_shop_world)
  = Raised (HTTPException 400 "Shop is not accepting orders").
Proof.
  apply (proj2 (checks_in_fixed_order sample_py
                  (sample_request [CartItem.mk "nothing" "var1" 1] DELIVERY)
                  (Str "c1") closed_shop_world)).
  apply (ShopNotAccepting _ _ (Shop.mk (Str "approved") false (dec 50)));
    [discriminate | vm_compute; reflexivity | reflexivity | reflexivity].
Defined.

(** * Stock is read, never written *)




(** * Money *)



(** * Requests running together *)













(** * What creating an order leaves alone *)


(** * The orders table and the order model *)

(** X16. [DynamoDBService.create_order] stores no [Order] at all: the
    dictionary of every order holds the [float] subtotal, so the table
    service raises [TypeError] when it is asked to store it, and the
    orders table stays as it was. *)
Theorem db_create_order_raises order w :
  let R := run (db_service.create_order order) w in
  In ("subtotal", PyFloat (Order.subtotal order)) (Order.dict order) /\
  fst R = Raised TypeError /\
  journal (snd R) = journal w ++ [CallOrdersPutItem order] /\
  orders_table (snd R) = orders_table w.
Proof.
  intros R. subst R. split; [cbn; tauto|].
  unfold db_service.create_order, call. cbn [bind run handle].
  rewrite put_item_raises. repeat split.
Qed.

(** X17. [create_order] returns for no request: in every world, for every
    cart, shop, mode and caller, the outcome is an exception with an HTTP
    status, and it depends on the cart through its first line only. *)
Theorem create_order_always_raises py order_data user w :
  let R := run (create_order py order_data user) w in
  (exists status detail, fst R = Raised (HTTPException status detail)) /\
  (forall ci rest rest',
     OrderCreate.items order_data = ci :: rest ->
     fst (run (create_order py (with_items order_data (ci :: rest')) user) w)
     = fst R).
Proof.
  intros R. subst R. rewrite run_create_order. split.
  - unfold create_order_result, after_shop_check. cbv zeta.
    destruct (get_item _ _) as [[item|]|e]; cbn [fst].
    + destruct (negb (text_is _ _)); [do 2 eexists; reflexivity|].
      destruct (negb (Shop.accepting_orders item));
        [do 2 eexists; reflexivity|].
      destruct (OrderCreate.items order_data) as [|ci rest].
      * destruct (OrderCreate.delivery_type order_data);
          [do 2 eexists; reflexivity|].
        destruct user; do 2 eexists; reflexivity.
      * cbn [fst]. destruct (line_exn py _ ci); do 2 eexists; reflexivity.
    + do 2 eexists; reflexivity.
    + destruct e; do 2 eexists; reflexivity.
  - intros ci rest rest' Hcart. rewrite run_create_order.
    unfold create_order_result, after_shop_check. rewrite Hcart.
    reflexivity.
Qed.

(** * Reviews *)

(** [create_review], spelled out. *)
Lemma create_review_eq review_data user w :
  customer_api.create_review review_data user w =
  match orders_table w !! ReviewCreate.order_id review_data with
  | None => (Raised (HTTPException 404 "Order not found"), w)
  | Some order =>
    if String.eqb (Order.customer_id order) user then
      match Order.status order with
      | DELIVERED =>
        if ((1 <=? ReviewCreate.rating review_data)
            && (ReviewCreate.rating review_data <=? 5))%Z
        then (Returned (Review.mk (uuid_stream w (uuid_next w)) user
                          (ReviewCreate.shop_id review_data)
                          (ReviewCreate.product_id review_data)
                          (ReviewCreate.order_id review_data)
                          (ReviewCreate.rating review_data)
                          (ReviewCreate.title review_data)
                          (ReviewCreate.comment review_data) [] true true),
              next_uuid w)
        else (Raised (HTTPException 500 "Failed to create review"),
              next_uuid w)
      | _ => (Raised (HTTPException 400 "Can only review delivered orders"), w)
      end
    else (Raised (HTTPException 403 "Access denied"), w)
  end.
Proof.
  unfold customer_api.create_review, customer_api.create_review_body,
    dynamodb.get_order, Review_init.
  destruct (orders_table w !! ReviewCreate.order_id review_data) as [order|];
    [|reflexivity].
  destruct (String.eqb (Order.customer_id order) user); [|reflexivity].
  destruct (Order.status order); try reflexivity.
  cbn [handle negb].
  destruct ((1 <=? _) && (_ <=? 5))%Z; reflexivity.
Qed.

(** X8. [create_review] returns a review exactly when the order of the
    request is stored, belongs to the caller, is DELIVERED and the rating
    is between 1 and 5; the review is then marked verified and carries the
    caller's id. With the first three in place, a rating outside 1..5 gives
    status 500, "Failed to create review". In no case is any table
    changed: the review is returned, not stored. *)
Theorem create_review_outcome review_data user w :
  let R := customer_api.create_review review_data user w in
  (forall review,
     fst R = Returned review <->
     exists order,
       orders_table w !! ReviewCreate.order_id review_data = Some order /\
       Order.customer_id order = user /\
       Order.status order = DELIVERED /\
       (1 <= ReviewCreate.rating review_data <= 5)%Z /\
       review = Review.mk (uuid_stream w (uuid_next w)) user
                  (ReviewCreate.shop_id review_data)
                  (ReviewCreate.product_id review_data)
                  (ReviewCreate.order_id review_data)
                  (ReviewCreate.rating review_data)
                  (ReviewCreate.title review_data)
                  (ReviewCreate.comment review_data) [] true true) /\
  (forall order,
     orders_table w !! ReviewCreate.order_id review_data = Some order ->
     Order.customer_id order = user ->
     Order.status order = DELIVERED ->
     ~ (1 <= ReviewCreate.rating review_data <= 5)%Z ->
     fst R = Raised (HTTPException 500 "Failed to create review")) /\
  orders_table (snd R) = orders_table w /\
  shops_table (snd R) = shops_table w /\
  products_table (snd R) = products_table w.
Proof.
  intros R. subst R. rewrite create_review_eq.
  destruct (orders_table w !! ReviewCreate.order_id review_data)
    as [order|] eqn:Hget.
  2:{ cbn [fst snd]. split; [|split; [|auto]].
      - intros review. split; [discriminate|].
        intros (o & [=] & _).
      - intros o [=]. }
  destruct (String.eqb_spec (Order.customer_id order) user) as [Hc|Hc].
  2:{ cbn [fst snd]. split; [|split; [|auto]].
      - intros review. split; [discriminate|].
        intros (o & [= <-] & ? & _). contradiction.
      - intros o [= <-] ?. contradiction. }
  assert (Hnd : Order.status order <> DELIVERED ->
    forall X : Outcome Review.t * World,
      X = (Raised (HTTPException 400 "Can only review delivered orders"), w) ->
      (forall review,
         fst X = Returned review <->
         exists o,
           Some order = Some o /\
           Order.customer_id o = user /\
           Order.status o = DELIVERED /\
           (1 <= ReviewCreate.rating review_data <= 5)%Z /\
           review = Review.mk (uuid_stream w (uuid_next w)) user
                      (ReviewCreate.shop_id review_data)
                      (ReviewCreate.product_id review_data)
                      (ReviewCreate.order_id review_data)
                      (ReviewCreate.rating review_data)
                      (ReviewCreate.title review_data)
                      (ReviewCreate.comment review_data) [] true true) /\
      (forall o,
         Some order = Some o ->
         Order.customer_id o = user ->
         Order.status o = DELIVERED ->
         ~ (1 <= ReviewCreate.rating review_data <= 5)%Z ->
         fst X = Raised (HTTPException 500 "Failed to create review")) /\
      orders_table (snd X) = orders_table w /\
      shops_table (snd X) = shops_table w /\
      products_table (snd X) = products_table w).
  { intros Hst X ->. cbn [fst snd]. split; [|split; [|auto]].
    - intros review. split; [discriminate|].
      intros (o & [= <-] & _ & ? & _). contradiction.
    - intros o [= <-] _ ?. contradiction. }
  destruct (Order.status order) eqn:Hst;
    try (apply Hnd; [discriminate | reflexivity]).
  clear Hnd.
  destruct (Z.leb_spec 1 (ReviewCreate.rating review_data)) as [H1|H1];
    [destruct (Z.leb_spec (ReviewCreate.rating review_data) 5) as [H5|H5]|];
    cbn [andb fst snd next_uuid orders_table shops_table products_table].
  - split; [|split; [|auto]].
    + intros review. split.
      * intros [= <-]. exists order. repeat split; trivial.
      * intros (o & _ & _ & _ & _ & ->). reflexivity.
    + intros o _ _ _ Hr. exfalso. apply Hr. lia.
  - split; [|split; [|auto]].
    + intros review. split; [discriminate|].
      intros (o & _ & _ & _ & ? & _). lia.
    + reflexivity.
  - split; [|split; [|auto]].
    + intros review. split; [discriminate|].
      intros (o & _ & _ & _ & ? & _). lia.
    + reflexivity.
Qed.

(** * Status updates by the admin *)


(** * Authentication *)

(** X13. [get_current_user] fails in one way only: an expired token, an
    invalid one, a payload without user id and a user that is not stored
    all give 401 "Invalid authentication" -- the 404 raised for the missing
    user is caught by the handler's own [except]. It returns a user
    exactly when the token decodes to a payload whose user id is stored;
    whether the account is active is not looked at. *)
Theorem get_current_user_outcome jwt_decode users token :
  let R := customer_api.get_current_user jwt_decode users token in
  (forall e, R = Raised e ->
     e = HTTPException 401 "Invalid authentication") /\
  (forall user,
     R = Returned user <->
     exists payload user_id,
       jwt_decode token = Decoded payload /\
       payload !! "user_id" = Some user_id /\
       users !! user_id = Some user).
Proof.
  intros R. subst R.
  unfold customer_api.get_current_user, customer_api.get_current_user_body,
    google_auth_service.verify_jwt_token, dynamodb.get_user.
  destruct (jwt_decode token) as [payload| |] eqn:Hdec.
  - destruct (payload !! "user_id") as [uid|] eqn:Huid.
    + destruct (users !! uid) as [u|] eqn:Hu.
      * split; [discriminate|]. intros user. split.
        -- intros [= <-]. exists payload, uid. auto.
        -- intros (p & i & [= <-] & Hi & Hus). congruence.
      * split; [intros e [= <-]; reflexivity|]. intros user.
        split; [discriminate|].
        intros (p & i & [= <-] & Hi & Hus). congruence.
    + split; [intros e [= <-]; reflexivity|]. intros user.
      split; [discriminate|].
      intros (p & i & [= <-] & Hi & _). congruence.
  - split; [intros e [= <-]; reflexivity|]. intros user.
    split; [discriminate|]. intros (p & i & [=] & _).
  - split; [intros e [= <-]; reflexivity|]. intros user.
    split; [discriminate|]. intros (p & i & [=] & _).
Qed.

(** The deactivated account of the sample still signs in; the expired
    token and the unknown user get the same 401. *)
Example sample_sign_in :
  customer_api.get_current_user sample_jwt_decode sample_users "alice"
  = Returned (BaseUser.mk "u1" "alice@example.org" "Alice" CUSTOMER false) /\
  customer_api.get_current_user sample_jwt_decode sample_users "old"
  = Raised (HTTPException 401 "Invalid authentication") /\
  customer_api.get_current_user sample_jwt_decode sample_users "ghost"
  = Raised (HTTPException 401 "Invalid authentication").
Proof. repeat split; vm_compute; reflexivity. Qed.

(** X14. [get_current_admin] returns a user exactly when the token decodes
    to the id of a stored user whose role is ADMIN. Every failure is
    401 "Invalid authentication": a stored user who is not an admin gets
    that 401 too, not the 403 that the body raises for him. *)
Theorem get_current_admin_outcome jwt_decode users token :
  let R := admin_api.get_current_admin jwt_decode users token in
  (forall e, R = Raised e ->
     e = HTTPException 401 "Invalid authentication") /\
  (forall user,
     R = Returned user <->
     exists payload user_id,
       jwt_decode token = Decoded payload /\
       payload !! "user_id" = Some user_id /\
       users !! user_id = Some user /\
       BaseUser.role user = ADMIN) /\
  (forall user,
     customer_api.get_current_user jwt_decode users token = Returned user ->
     BaseUser.role user <> ADMIN ->
     R = Raised (HTTPException 401 "Invalid authentication")).
Proof.
  intros R. subst R.
  unfold admin_api.get_current_admin, admin_api.get_current_admin_body,
    customer_api.get_current_user, customer_api.get_current_user_body,
    google_auth_service.verify_jwt_token, dynamodb.get_user.
  destruct (jwt_decode token) as [payload| |] eqn:Hdec.
  - destruct (payload !! "user_id") as [uid|] eqn:Huid.
    + destruct (users !! uid) as [u|] eqn:Hu.
      * destruct (BaseUser.role u) eqn:Hrole.
        all: split; [try discriminate; intros e [= <-]; reflexivity|].
        all: split; [|try (intros user [= <-] ?; congruence);
                      intros; reflexivity].
        all: intros user; split; try discriminate.
        all: try (intros (p & i & [= <-] & Hi & Hus & Hr); congruence).
        intros [= <-]. exists payload, uid. auto.
      * split; [intros e [= <-]; reflexivity|].
        split; [|discriminate]. intros user. split; [discriminate|].
        intros (p & i & [= <-] & Hi & Hus & _). congruence.
    + split; [intros e [= <-]; reflexivity|].
      split; [|discriminate]. intros user. split; [discriminate|].
      intros (p & i & [= <-] & Hi & _). congruence.
  - split; [intros e [= <-]; reflexivity|].
    split; [|discriminate]. intros user. split; [discriminate|].
    intros (p & i & [=] & _).
  - split; [intros e [= <-]; reflexivity|].
    split; [|discriminate]. intros user. split; [discriminate|].
    intros (p & i & [=] & _).
Qed.

Lemma get_current_admin_outcome_witness :
  admin_api.get_current_admin sample_jwt_decode sample_users "alice"
  = Raised (HTTPException 401 "Invalid authentication").
Proof.
  apply (proj2 (proj2 (get_current_admin_outcome sample_jwt_decode
                         sample_users "alice"))
           (BaseUser.mk "u1" "alice@example.org" "Alice" CUSTOMER false)).
  - vm_compute. reflexivity.
  - discriminate.
Defined.

(** * Shops seen and shops ordered from *)

(** X15. A shop that [get_shop] does not show takes no orders. For a shop
    id that is not empty, every failure of [get_shop] -- the shop is
    missing or not approved -- is the failure of [create_order] on that
    shop, with the same status and detail, whatever the cart. For the
    empty shop id both lookups raise, and each handler answers with its
    own 500. *)
Theorem hidden_shop_takes_no_orders py order_data user w :
  let sid := OrderCreate.shop_id order_data in
  (sid <> EmptyString ->
   forall e,
     customer_api.get_shop py sid w = Raised e ->
     fst (run (create_order py order_data user) w) = Raised e) /\
  (sid = EmptyString ->
   customer_api.get_shop py sid w
   = Raised (HTTPException 500 "Failed to fetch shop") /\
   fst (run (create_order py order_data user) w)
   = Raised (HTTPException 500 "Failed to create order")).
Proof.
  intros sid. subst sid. rewrite run_create_order.
  unfold customer_api.get_shop, create_order_result. cbv zeta. split.
  - intros Hk e. rewrite (get_item_key _ _ Hk).
    destruct (shops_table w !! OrderCreate.shop_id order_data) as [item|];
      [|intros [= <-]; reflexivity].
    cbn [db_service._deserialize_datetime_shop Shop.status].
    destruct (negb (text_is _ _)); [|discriminate].
    intros [= <-]. reflexivity.
  - intros ->. split; reflexivity.
Qed.

Lemma hidden_shop_takes_no_orders_witness :
  fst (run (create_order sample_py
              (OrderCreate.mk "shop9" sample_cart DELIVERY None None)
              (Str "c1")) sample_world)
  = Raised (HTTPException 404 "Shop not found").
Proof.
  apply (proj1 (hidden_shop_takes_no_orders sample_py
                  (OrderCreate.mk "shop9" sample_cart DELIVERY None None)
                  (Str "c1") sample_world)).
  - discriminate.
  - vm_compute. reflexivity.
Defined.
